(** * psycopg2 [lib/_json.py]: JSON adaptation objects and typecaster registration

    A shallow embedding of [Json], [register_json], [register_default_json],
    [_create_json_typecasters] and [_get_json_oids], with the statements the
    specification makes about them.

    Python code that touches the connection, the cursor or the typecaster
    tables is written in a state-and-exception monad over a [world]; an
    exception leaves the effects that happened before it in place, as in
    Python. *)

From stdpp Require Import base option list strings gmap.

Local Open Scope string_scope.
Local Open Scope list_scope.

(** ** Exceptions and outcomes *)

(** The exception classes the module raises or lets through. *)
Inductive exn : Type :=
| ImportError (msg : string)
| ProgrammingError (msg : string)
| OperationalError (msg : string)
| UnicodeEncodeError (msg : string).

(** What a Python call yields: a value, or a raised exception. *)
Inductive outcome (A : Type) : Type :=
| Return (a : A)
| Raise (e : exn).

Arguments Return {A} a.
Arguments Raise {A} e.

Definition is_raise {A : Type} (o : outcome A) : bool :=
  match o with Raise _ => true | Return _ => false end.

(** ** Constants of the module *)

(** oids from PostgreSQL 9.2 *)
Definition JSON_OID : Z := 114.
Definition JSONARRAY_OID : Z := 199.

(** ** The driver's side *)

(** Modelled from the spec: the transaction statuses of a connection come from
    [psycopg2.extensions], which is not in this file.  [STATUS_IN_TRANSACTION]
    is the driver's name for "inside an explicitly-begun transaction", an alias
    of [STATUS_BEGIN]. *)
Inductive conn_status : Type :=
| STATUS_SETUP
| STATUS_READY
| STATUS_BEGIN
| STATUS_PREPARED.

Definition STATUS_IN_TRANSACTION : conn_status := STATUS_BEGIN.

#[global] Instance conn_status_eq_dec : EqDecision conn_status.
Proof. solve_decision. Defined.

(** What a non-[None] [conn_or_curs] is: the connection, or a cursor on it. *)
Inductive handle : Type :=
| a_connection
| a_cursor.

#[global] Instance handle_eq_dec : EqDecision handle.
Proof. solve_decision. Defined.

(** One row of the server's [pg_type] catalog, with the columns the lookup
    reads. *)
Record pg_type_row : Type := {
  typname : string;
  t_oid : Z;
  typarray : Z
}.

(** A row as [fetchone] returns it for the lookup: [(oid, typarray)], the
    second column [None] when the query selected [NULL]. *)
Definition row : Type := (Z * option Z)%type.

Section JsonModule.

(** Values of the application (what [json.loads] returns, what [Json] wraps). *)
Context {pyobj : Type}.

Definition dumps_fn : Type := pyobj → outcome string.
Definition loads_fn : Type := string → outcome pyobj.

(** The [json] implementation chosen at import time, [None] when neither
    [json] nor [simplejson] could be imported. *)
Record json_module : Type := {
  json_dumps : dumps_fn;
  json_loads : loads_fn
}.

Variable json : option json_module.

(** Modelled from the spec: [new_type] and [new_array_type] are constructors of
    the driver (C code of [psycopg2._psycopg], not in this file); a descriptor
    is the triple they are given: the oids it matches, its name, and the cast
    function or the base descriptor whose cast decodes the elements. *)
Inductive typecaster : Type :=
| new_type (values : list (option Z)) (name : string)
           (castobj : string → handle → outcome pyobj)
| new_array_type (values : list (option Z)) (name : string)
                 (baseobj : typecaster).

Definition values_of (t : typecaster) : list (option Z) :=
  match t with
  | new_type vs _ _ => vs
  | new_array_type vs _ _ => vs
  end.

(** Calls that cross into the driver, in the order they are made. *)
Inductive event : Type :=
| EvExecute (sql : string)
| EvFetchone
| EvRollback
| EvRegisterType (obj : typecaster) (scope : option handle).

(** Modelled from the spec: the connection object ([status], [server_version],
    [autocommit]), the server behind it, and the typecaster tables of the
    driver.  The world holds what one call of this module can reach: the
    connection behind [conn_or_curs], the catalog of its server, the result set
    of the cursor the lookup runs on, and the process-wide, per-connection and
    per-cursor tables that [register_type] writes. *)
Record world : Type := {
  status : conn_status;
  autocommit : bool;
  server_version : Z;
  pg_type : list pg_type_row;
  (** the error, if any, with which the driver fails a query (lost link,
      aborted transaction, missing privilege) *)
  query_fault : option exn;
  result_rows : list row;
  global_types : gmap (option Z) typecaster;
  connection_types : gmap (option Z) typecaster;
  cursor_types : gmap (option Z) typecaster;
  trace : list event
}.

Definition set_status (s : conn_status) (w : world) : world :=
  {| status := s; autocommit := autocommit w;
     server_version := server_version w; pg_type := pg_type w;
     query_fault := query_fault w; result_rows := result_rows w;
     global_types := global_types w; connection_types := connection_types w;
     cursor_types := cursor_types w; trace := trace w |}.

Definition set_result_rows (rs : list row) (w : world) : world :=
  {| status := status w; autocommit := autocommit w;
     server_version := server_version w; pg_type := pg_type w;
     query_fault := query_fault w; result_rows := rs;
     global_types := global_types w; connection_types := connection_types w;
     cursor_types := cursor_types w; trace := trace w |}.

Definition set_global_types (m : gmap (option Z) typecaster) (w : world) : world :=
  {| status := status w; autocommit := autocommit w;
     server_version := server_version w; pg_type := pg_type w;
     query_fault := query_fault w; result_rows := result_rows w;
     global_types := m; connection_types := connection_types w;
     cursor_types := cursor_types w; trace := trace w |}.

Definition set_connection_types (m : gmap (option Z) typecaster) (w : world) : world :=
  {| status := status w; autocommit := autocommit w;
     server_version := server_version w; pg_type := pg_type w;
     query_fault := query_fault w; result_rows := result_rows w;
     global_types := global_types w; connection_types := m;
     cursor_types := cursor_types w; trace := trace w |}.

Definition set_cursor_types (m : gmap (option Z) typecaster) (w : world) : world :=
  {| status := status w; autocommit := autocommit w;
     server_version := server_version w; pg_type := pg_type w;
     query_fault := query_fault w; result_rows := result_rows w;
     global_types := global_types w; connection_types := connection_types w;
     cursor_types := m; trace := trace w |}.

Definition log (e : event) (w : world) : world :=
  {| status := status w; autocommit := autocommit w;
     server_version := server_version w; pg_type := pg_type w;
     query_fault := query_fault w; result_rows := result_rows w;
     global_types := global_types w; connection_types := connection_types w;
     cursor_types := cursor_types w; trace := trace w ++ [e] |}.

(** ** The monad of effectful Python code *)

Definition M (A : Type) : Type := world → outcome A * world.

Definition ret {A : Type} (a : A) : M A := λ w, (Return a, w).

Definition raise {A : Type} (e : exn) : M A := λ w, (Raise e, w).

Definition bind {A B : Type} (m : M A) (k : A → M B) : M B :=
  λ w, match m w with
       | (Return a, w') => k a w'
       | (Raise e, w') => (Raise e, w')
       end.

(** A call that can raise but touches nothing. *)
Definition lift {A : Type} (o : outcome A) : M A := λ w, (o, w).

Definition gets {A : Type} (f : world → A) : M A := λ w, (Return (f w), w).

#[local] Instance M_ret : MRet M := @ret.
#[local] Instance M_bind : MBind M := λ A B k m, bind m k.

(** ** The driver's operations *)

(** The text of the lookup: ["SELECT t.oid, %s FROM pg_type t WHERE t.typname =
    'json';" % typarray]. *)
Definition select_json_oids (typarray : string) : string :=
  "SELECT t.oid, " +:+ typarray +:+ " FROM pg_type t WHERE t.typname = 'json';".

(** The rows of [pg_type] that the [WHERE] clause keeps. *)
Definition json_rows (cat : list pg_type_row) : list pg_type_row :=
  filter (λ t, typname t = "json") cat.

(** Modelled from the spec: [_solve_conn_curs] (of [psycopg2.extras], not in
    this file) yields the connection and a new cursor on it.  The docstring of
    [register_json] lets [conn_or_curs] be [None] only when the oids are
    provided: with no connection or cursor the lookup fails before any query. *)
Definition _solve_conn_curs (conn_or_curs : option handle) : M (handle * handle) :=
  match conn_or_curs with
  | None => raise (ProgrammingError "no connection or cursor provided")
  | Some _ => mret (a_connection, a_cursor)
  end.

(** Modelled from the spec: the attributes [conn.status],
    [conn.server_version] and [conn.autocommit] read the connection. *)
Definition conn_status_of (conn : handle) : M conn_status := gets status.
Definition conn_server_version (conn : handle) : M Z := gets server_version.
Definition conn_autocommit (conn : handle) : M bool := gets autocommit.

(** Modelled from the spec: the implicit transaction.  A statement on an idle
    connection in manual-commit mode begins a transaction; in auto-commit mode,
    or with a transaction already open, nothing changes. *)
Definition pq_begin (w : world) : world :=
  if negb (autocommit w) && bool_decide (status w = STATUS_READY)
  then set_status STATUS_BEGIN w else w.

(** Modelled from the spec: [curs.execute(sql)].  On an idle connection in
    manual-commit mode the driver opens the implicit transaction first.  The
    query then fails with the driver's error if there is one; otherwise the
    server evaluates the lookup against its catalog (the column [typarray]
    does not exist before PostgreSQL 8.3) and the rows wait on the cursor. *)
Definition curs_execute (curs : handle) (sql : string) : M unit :=
  λ w,
    let w := pq_begin (log (EvExecute sql) w) in
    match query_fault w with
    | Some e => (Raise e, w)
    | None =>
        if String.eqb sql (select_json_oids "typarray") then
          if (server_version w <? 80300)%Z
          then (Raise (ProgrammingError "column typarray does not exist"), w)
          else (Return (),
                set_result_rows
                  ((λ t, (t_oid t, Some (typarray t))) <$> json_rows (pg_type w)) w)
        else if String.eqb sql (select_json_oids "NULL") then
          (Return (),
           set_result_rows ((λ t, (t_oid t, None)) <$> json_rows (pg_type w)) w)
        else (Raise (ProgrammingError "syntax error"), w)
    end.

(** Modelled from the spec: [curs.fetchone()], the next row of the result or
    [None] when there is none left. *)
Definition curs_fetchone (curs : handle) : M (option row) :=
  λ w,
    let w := log EvFetchone w in
    match result_rows w with
    | [] => (Return None, w)
    | r :: rs => (Return (Some r), set_result_rows rs w)
    end.

(** Modelled from the spec: [conn.rollback()] ends the open transaction, if
    there is one, and leaves the connection idle. *)
Definition conn_rollback (conn : handle) : M unit :=
  λ w,
    let w := log EvRollback w in
    (Return (),
     if negb (autocommit w) && bool_decide (status w = STATUS_BEGIN)
     then set_status STATUS_READY w else w).

(** Modelled from the spec: what the driver does with a descriptor in a
    table, every oid of its [values] maps to it. *)
Definition typecast_add (obj : typecaster) (tbl : gmap (option Z) typecaster)
  : gmap (option Z) typecaster :=
  foldl (λ d k, <[k := obj]> d) tbl (values_of obj).

(** Modelled from the spec: [register_type(obj, scope)] installs the descriptor
    in the table of the connection or cursor [scope], or in the process-wide
    table when [scope] is [None]. *)
Definition register_type (obj : typecaster) (scope : option handle) : M unit :=
  λ w,
    let w := log (EvRegisterType obj scope) w in
    (Return (),
     match scope with
     | None => set_global_types (typecast_add obj (global_types w)) w
     | Some a_connection =>
         set_connection_types (typecast_add obj (connection_types w)) w
     | Some a_cursor => set_cursor_types (typecast_add obj (cursor_types w)) w
     end).

(** ** [class Json] *)

Record Json : Type := {
  adapted : pyobj;
  _dumps : option dumps_fn
}.

(** [Json.__init__(self, adapted, dumps=None)] *)
Definition Json_init (adapted : pyobj) (dumps : option dumps_fn) : Json :=
  {| adapted := adapted;
     _dumps := match dumps with
               | Some dumps => Some dumps
               | None =>
                   match json with
                   | Some json => Some (json_dumps json)
                   | None => None
                   end
               end |}.

(** [Json.dumps(self, obj)] *)
Definition Json_dumps (self : Json) (obj : pyobj) : outcome string :=
  let dumps := _dumps self in
  match dumps with
  | Some dumps => dumps obj
  | None =>
      Raise (ImportError
               "json module not available: you should provide a dumps function")
  end.

(** Modelled from the spec: the driver's string quoting,
    [QuotedString(s).getquoted()], which returns the quoted literal or raises
    on a text it cannot encode. *)
Variable QuotedString_getquoted : string → outcome string.


(** ** Typecasters *)

(** [_create_json_typecasters(oid, array_oid, loads=None)].  [JSONARRAY] is a
    Python reference, so it is typed as one that can be [None]; the function
    binds it to what [new_array_type] returns. *)
Definition _create_json_typecasters (oid : Z) (array_oid : option Z)
    (loads : option loads_fn) : outcome (typecaster * option typecaster) :=
  match (match loads with
         | Some loads => Return loads
         | None =>
             match json with
             | None => Raise (ImportError "no json module available")
             | Some json => Return (json_loads json)
             end
         end) with
  | Raise e => Raise e
  | Return loads =>
      let typecast_json := λ (s : string) (cur : handle), loads s in
      let JSON := new_type [Some oid] "JSON" typecast_json in
      let JSONARRAY := new_array_type [array_oid] "JSONARRAY" JSON in
      Return (JSON, Some JSONARRAY)
  end.

(** [_get_json_oids(conn_or_curs)] *)
Definition _get_json_oids (conn_or_curs : option handle) : M row :=
  '(conn, curs) ← _solve_conn_curs conn_or_curs;
  (* Store the transaction status of the connection to revert it after use *)
  conn_status ← conn_status_of conn;
  (* column typarray not available before PG 8.3 *)
  server_version ← conn_server_version conn;
  let typarray := if (80300 <=? server_version)%Z then "typarray" else "NULL" in
  _ ← curs_execute curs (select_json_oids typarray);
  r ← curs_fetchone curs;
  (* revert the status of the connection as before the command *)
  autocommit ← conn_autocommit conn;
  _ ← (if negb (bool_decide (conn_status = STATUS_IN_TRANSACTION)) && negb autocommit
       then conn_rollback conn else mret ());
  match r with
  | None => raise (ProgrammingError "json data type not found")
  | Some r => mret r
  end.

(** [not globally and conn_or_curs or None]: a connection or cursor is a true
    value, so the result is [conn_or_curs] when [globally] is false and [None]
    otherwise. *)
Definition registration_scope (globally : bool) (conn_or_curs : option handle)
  : option handle :=
  if negb globally then conn_or_curs else None.

(** [register_json(conn_or_curs=None, globally=False, loads=None, oid=None,
    array_oid=None)] *)
Definition register_json (conn_or_curs : option handle) (globally : bool)
    (loads : option loads_fn) (oid : option Z) (array_oid : option Z)
  : M (typecaster * option typecaster) :=
  '(oid, array_oid) ← match oid with
                      | None => _get_json_oids conn_or_curs
                      | Some oid => mret (oid, array_oid)
                      end;
  '(JSON, JSONARRAY) ← lift (_create_json_typecasters oid array_oid loads);
  _ ← register_type JSON (registration_scope globally conn_or_curs);
  _ ← match JSONARRAY with
      | Some JSONARRAY =>
          register_type JSONARRAY (registration_scope globally conn_or_curs)
      | None => mret ()
      end;
  mret (JSON, JSONARRAY).

(** [register_default_json(conn_or_curs=None, globally=False, loads=None)] *)
Definition register_default_json (conn_or_curs : option handle) (globally : bool)
    (loads : option loads_fn) : M (typecaster * option typecaster) :=
  register_json conn_or_curs globally loads (Some JSON_OID) (Some JSONARRAY_OID).

End JsonModule.

Arguments typecaster : clear implicits.
Arguments event : clear implicits.
Arguments world : clear implicits.
Arguments json_module : clear implicits.
Arguments Json : clear implicits.
Arguments M : clear implicits.

Arguments select_json_oids : simpl never.

(** ** Vocabulary of the statements *)

Section Vocabulary.
Context {pyobj : Type}.
Implicit Types (w : world pyobj).

(** The text the lookup sends on the connection of [w]. *)
Definition lookup_sql w : string :=
  select_json_oids (if (80300 <=? server_version w)%Z then "typarray" else "NULL").

(** The rows the server of [w] answers the lookup with. *)
Definition lookup_rows w : list row :=
  (λ t, (t_oid t, if (80300 <=? server_version w)%Z then Some (typarray t) else None))
    <$> json_rows (pg_type w).

(** Whether [_get_json_oids] calls [rollback] on the connection of [w]: the
    condition of its [if]. *)
Definition reverts w : bool :=
  negb (bool_decide (status w = STATUS_IN_TRANSACTION)) && negb (autocommit w).

(** The driver calls the lookup makes, in order. *)
Definition lookup_events (conn_or_curs : option handle) w : list (event pyobj) :=
  match conn_or_curs with
  | None => []
  | Some _ =>
      EvExecute (lookup_sql w)
      :: match query_fault w with
         | Some _ => []
         | None => EvFetchone :: (if reverts w then [EvRollback] else [])
         end
  end.

(** The table a [register_type] scope names. *)
Definition table (scope : option handle) w : gmap (option Z) (typecaster pyobj) :=
  match scope with
  | None => global_types w
  | Some a_connection => connection_types w
  | Some a_cursor => cursor_types w
  end.

(** How many statements a run of driver calls sends to the server. *)
Fixpoint queries (evs : list (event pyobj)) : nat :=
  match evs with
  | [] => 0
  | EvExecute _ :: evs => S (queries evs)
  | _ :: evs => queries evs
  end.

(** Whether a driver call installs a descriptor. *)
Definition is_register (ev : event pyobj) : bool :=
  match ev with EvRegisterType _ _ => true | _ => false end.

(** The function [_create_json_typecasters] decodes with: the [loads] given,
    else [json.loads], else none. *)
Definition effective_loads (json : option (json_module pyobj))
    (loads : option loads_fn) : option loads_fn :=
  match loads with
  | Some loads => Some loads
  | None => json_loads <$> json
  end.

(** The pair of oids [register_json] goes on with: its arguments when [oid]
    is given, the row of the lookup otherwise. *)
Definition resolved_oids (c : option handle) (oid array_oid : option Z) w
  : outcome row :=
  match oid with
  | Some oid => Return (oid, array_oid)
  | None => (_get_json_oids c w).1
  end.

(** The descriptors [JSON] and [JSONARRAY] are installed at [scope] between
    [w] and [w']: the two [register_type] calls end the trace, nothing before
    them installs anything, and the table of [scope] is the only one written. *)
Definition installed (JSON JSONARRAY : typecaster pyobj) (scope : option handle)
    w w' : Prop :=
  (∃ pre, trace w' = trace w ++ pre ++ [EvRegisterType JSON scope;
                                           EvRegisterType JSONARRAY scope]
          ∧ forallb (λ ev, negb (is_register ev)) pre = true)
  ∧ ∀ s, table s w'
         = if decide (s = scope)
           then typecast_add JSONARRAY (typecast_add JSON (table s w))
           else table s w.

End Vocabulary.

(** ** Sample worlds *)

Module Sample.

(** Application values are strings here, and the [json] module passes them
    through. *)
Definition json : json_module string :=
  {| json_dumps := Return; json_loads := Return |}.

Definition upper_loads : loads_fn (pyobj := string) := λ s, Return ("<" +:+ s +:+ ">").

(** The catalog of a server where [json] is an extension type. *)
Definition catalog : list pg_type_row :=
  [ {| typname := "int4"; t_oid := 23; typarray := 1007 |};
    {| typname := "json"; t_oid := 16400; typarray := 16401 |} ].

(** An idle connection in manual-commit mode. *)
Definition idle : world string :=
  {| status := STATUS_READY; autocommit := false; server_version := 90105;
     pg_type := catalog; query_fault := None; result_rows := [];
     global_types := ∅; connection_types := ∅; cursor_types := ∅;
     trace := [] |}.

(** The same connection on a server without the [json] type. *)
Definition idle_without_json : world string :=
  {| status := STATUS_READY; autocommit := false; server_version := 90105;
     pg_type := [ {| typname := "int4"; t_oid := 23; typarray := 1007 |} ];
     query_fault := None; result_rows := [];
     global_types := ∅; connection_types := ∅; cursor_types := ∅;
     trace := [] |}.

(** A connection whose link to the server is gone. *)
Definition broken : world string :=
  {| status := STATUS_READY; autocommit := false; server_version := 90105;
     pg_type := catalog;
     query_fault :=
       Some (OperationalError "server closed the connection unexpectedly");
     result_rows := [];
     global_types := ∅; connection_types := ∅; cursor_types := ∅;
     trace := [] |}.

(** A server older than PostgreSQL 8.3 that has a [json] type installed. *)
Definition before_typarray : world string :=
  {| status := STATUS_READY; autocommit := false; server_version := 80204;
     pg_type := catalog; query_fault := None; result_rows := [];
     global_types := ∅; connection_types := ∅; cursor_types := ∅;
     trace := [] |}.

(** The descriptors [register_json] builds on [idle] with the [json] module. *)
Definition JSON : typecaster string :=
  new_type [Some 16400%Z] "JSON" (λ s _, Return s).

Definition JSONARRAY : typecaster string :=
  new_array_type [Some 16401%Z] "JSONARRAY" JSON.

End Sample.

(** ** Running the lookup *)

Section Properties.
Context {pyobj : Type}.
Implicit Types (w : world pyobj) (h : handle) (c : option handle) (g : bool).
Implicit Types (json : option (json_module pyobj)).

Lemma select_typarray_eqb :
  String.eqb (select_json_oids "typarray") (select_json_oids "typarray") = true.
Proof. reflexivity. Qed.

Lemma select_null_eqb :
  String.eqb (select_json_oids "NULL") (select_json_oids "typarray") = false
  ∧ String.eqb (select_json_oids "NULL") (select_json_oids "NULL") = true.
Proof. split; reflexivity. Qed.

(** [pq_begin] changes the status and nothing else. *)
Lemma pq_begin_autocommit w : autocommit (pq_begin w) = autocommit w.
Proof. unfold pq_begin. by destruct (_ && _). Qed.

Lemma pq_begin_server_version w : server_version (pq_begin w) = server_version w.
Proof. unfold pq_begin. by destruct (_ && _). Qed.

Lemma pq_begin_pg_type w : pg_type (pq_begin w) = pg_type w.
Proof. unfold pq_begin. by destruct (_ && _). Qed.

Lemma pq_begin_query_fault w : query_fault (pq_begin w) = query_fault w.
Proof. unfold pq_begin. by destruct (_ && _). Qed.

Lemma pq_begin_global_types w : global_types (pq_begin w) = global_types w.
Proof. unfold pq_begin. by destruct (_ && _). Qed.

Lemma pq_begin_connection_types w :
  connection_types (pq_begin w) = connection_types w.
Proof. unfold pq_begin. by destruct (_ && _). Qed.

Lemma pq_begin_cursor_types w : cursor_types (pq_begin w) = cursor_types w.
Proof. unfold pq_begin. by destruct (_ && _). Qed.

Lemma pq_begin_trace w : trace (pq_begin w) = trace w.
Proof. unfold pq_begin. by destruct (_ && _). Qed.

Lemma curs_execute_lookup h w :
  curs_execute h (lookup_sql w) w
  = let w1 := pq_begin (log (EvExecute (lookup_sql w)) w) in
    match query_fault w with
    | Some e => (Raise e, w1)
    | None => (Return (), set_result_rows (lookup_rows w) w1)
    end.
Proof.
  unfold curs_execute, lookup_sql, lookup_rows. cbv zeta.
  rewrite pq_begin_query_fault, pq_begin_server_version, pq_begin_pg_type. cbn.
  destruct (query_fault w); [done|].
  destruct (80300 <=? server_version w)%Z eqn:Hv.
  - rewrite select_typarray_eqb.
    by replace (server_version w <? 80300)%Z with false by lia.
  - by destruct select_null_eqb as [-> ->].
Qed.

(** [_get_json_oids] on a connection or cursor, step by step. *)
Lemma get_json_oids_run h w :
  _get_json_oids (Some h) w
  = let w1 := pq_begin (log (EvExecute (lookup_sql w)) w) in
    match query_fault w with
    | Some e => (Raise e, w1)
    | None =>
        let w2 := log EvFetchone (set_result_rows (lookup_rows w) w1) in
        let w3 := match lookup_rows w with
                  | [] => w2
                  | _ :: rs => set_result_rows rs w2
                  end in
        let w4 := if reverts w then (conn_rollback a_connection w3).2 else w3 in
        (match lookup_rows w with
         | [] => Raise (ProgrammingError "json data type not found")
         | r :: _ => Return r
         end, w4)
    end.
Proof.
  unfold _get_json_oids, _solve_conn_curs, conn_status_of, conn_server_version,
    conn_autocommit, mbind, mret, M_bind, M_ret, bind, ret, gets.
  change (select_json_oids _) with (lookup_sql w).
  rewrite curs_execute_lookup. cbv zeta.
  destruct (query_fault w); [done|].
  unfold curs_fetchone, reverts. cbv zeta.
  destruct (lookup_rows w) as [|r rs]; cbn -[conn_rollback pq_begin];
    rewrite pq_begin_autocommit; cbn -[conn_rollback pq_begin];
    by destruct (negb _ && negb _).
Qed.

(** [rollback] is logged and changes the status at most. *)
Lemma conn_rollback_trace h w :
  trace (conn_rollback h w).2 = trace w ++ [EvRollback].
Proof. unfold conn_rollback. cbn. by destruct (_ && _). Qed.

Lemma conn_rollback_global_types h w :
  global_types (conn_rollback h w).2 = global_types w.
Proof. unfold conn_rollback. cbn. by destruct (_ && _). Qed.

Lemma conn_rollback_connection_types h w :
  connection_types (conn_rollback h w).2 = connection_types w.
Proof. unfold conn_rollback. cbn. by destruct (_ && _). Qed.

Lemma conn_rollback_cursor_types h w :
  cursor_types (conn_rollback h w).2 = cursor_types w.
Proof. unfold conn_rollback. cbn. by destruct (_ && _). Qed.

Ltac frame :=
  repeat first
    [ progress cbn -[pq_begin conn_rollback]
    | rewrite pq_begin_trace | rewrite pq_begin_global_types
    | rewrite pq_begin_connection_types | rewrite pq_begin_cursor_types
    | rewrite pq_begin_autocommit | rewrite pq_begin_query_fault
    | rewrite conn_rollback_trace | rewrite conn_rollback_global_types
    | rewrite conn_rollback_connection_types
    | rewrite conn_rollback_cursor_types ].

(** Without a connection or cursor the lookup fails at once. *)
Lemma get_json_oids_none w :
  _get_json_oids None w
  = (Raise (ProgrammingError "no connection or cursor provided"), w).
Proof. reflexivity. Qed.

Lemma get_json_oids_trace c w :
  trace (_get_json_oids c w).2 = trace w ++ lookup_events c w.
Proof.
  destruct c as [h|]; [|by rewrite get_json_oids_none, app_nil_r].
  rewrite get_json_oids_run. unfold lookup_events. cbv zeta.
  destruct (query_fault w); [by frame|].
  destruct (lookup_rows w), (reverts w); frame; by rewrite <- ?app_assoc.
Qed.

(** The lookup writes no typecaster table. *)
Lemma get_json_oids_tables c w :
  global_types (_get_json_oids c w).2 = global_types w
  ∧ connection_types (_get_json_oids c w).2 = connection_types w
  ∧ cursor_types (_get_json_oids c w).2 = cursor_types w.
Proof.
  destruct c as [h|]; [|by rewrite get_json_oids_none].
  rewrite get_json_oids_run. cbv zeta.
  destruct (query_fault w); [by frame|].
  by destruct (lookup_rows w), (reverts w); frame.
Qed.

(** A lookup whose query succeeds leaves the connection in the status it
    found it in. *)
Lemma get_json_oids_status h w :
  query_fault w = None → status (_get_json_oids (Some h) w).2 = status w.
Proof.
  intros Hq. rewrite get_json_oids_run, Hq. cbv zeta.
  unfold reverts, conn_rollback, pq_begin, STATUS_IN_TRANSACTION.
  by destruct (lookup_rows w), w as [[] [] ? ? ? ? ? ? ? ?].
Qed.

Lemma get_json_oids_outcome h w :
  (_get_json_oids (Some h) w).1
  = match query_fault w with
    | Some e => Raise e
    | None =>
        match lookup_rows w with
        | [] => Raise (ProgrammingError "json data type not found")
        | r :: _ => Return r
        end
    end.
Proof. rewrite get_json_oids_run. cbv zeta. by destruct (query_fault w). Qed.

(** ** Running a registration *)

Lemma queries_app (evs1 evs2 : list (event pyobj)) :
  queries (evs1 ++ evs2) = queries evs1 + queries evs2.
Proof. induction evs1 as [|[] evs1 IH]; cbn; by rewrite ?IH. Qed.

(** The lookup sends one statement, when it has something to send it on. *)
Lemma queries_lookup_events c w :
  queries (lookup_events c w) = match c with Some _ => 1 | None => 0 end.
Proof.
  unfold lookup_events. destruct c; [|done].
  by destruct (query_fault w), (reverts w).
Qed.

Lemma lookup_events_no_register c w :
  forallb (λ ev, negb (is_register ev)) (lookup_events c w) = true.
Proof.
  unfold lookup_events. destruct c; [|done].
  by destruct (query_fault w), (reverts w).
Qed.

Lemma register_type_table obj scope w s :
  table s (register_type obj scope w).2
  = if decide (s = scope) then typecast_add obj (table s w) else table s w.
Proof.
  unfold register_type.
  destruct scope as [[]|], s as [[]|]; cbn; by case_decide.
Qed.

Lemma register_type_trace obj scope w :
  trace (register_type obj scope w).2 = trace w ++ [EvRegisterType obj scope].
Proof. unfold register_type. by destruct scope as [[]|]. Qed.

Lemma register_type_status obj scope w :
  status (register_type obj scope w).2 = status w.
Proof. unfold register_type. by destruct scope as [[]|]. Qed.

(** [register_json], step by step: the lookup if the oid is absent, the
    construction of the descriptors, then the installations. *)
Lemma register_json_run json c g loads oid array_oid w :
  register_json json c g loads oid array_oid w
  = match (match oid with
           | None => _get_json_oids c w
           | Some oid => (Return (oid, array_oid), w)
           end) with
    | (Raise e, w1) => (Raise e, w1)
    | (Return (oid, array_oid), w1) =>
        match _create_json_typecasters json oid array_oid loads with
        | Raise e => (Raise e, w1)
        | Return (JSON, Some JSONARRAY) =>
            (Return (JSON, Some JSONARRAY),
             (register_type JSONARRAY (registration_scope g c)
                (register_type JSON (registration_scope g c) w1).2).2)
        | Return (JSON, None) =>
            (Return (JSON, None),
             (register_type JSON (registration_scope g c) w1).2)
        end
    end.
Proof.
  unfold register_json, mbind, mret, M_bind, M_ret, bind, ret, lift.
  destruct oid as [oid|]; [|destruct (_get_json_oids c w) as [[[o ao]|e] w1]];
    try done;
    by destruct (_create_json_typecasters json _ _ loads) as [[J [A|]]|e].
Qed.

(** What [_create_json_typecasters] yields, with or without a [loads]. *)
Lemma create_json_typecasters_run json oid array_oid loads :
  _create_json_typecasters json oid array_oid loads
  = match loads, json with
    | Some loads, _ =>
        let JSON := new_type [Some oid] "JSON" (λ s _, loads s) in
        Return (JSON, Some (new_array_type [array_oid] "JSONARRAY" JSON))
    | None, Some json =>
        let JSON := new_type [Some oid] "JSON" (λ s _, json_loads json s) in
        Return (JSON, Some (new_array_type [array_oid] "JSONARRAY" JSON))
    | None, None => Raise (ImportError "no json module available")
    end.
Proof. unfold _create_json_typecasters. by destruct loads, json. Qed.

(** The step of [register_json] that settles the oids: what it logs and that
    it writes no table. *)
Lemma resolve_oids_frame c oid array_oid w :
  let run := match oid with
             | None => _get_json_oids c w
             | Some oid => (Return (oid, array_oid), w)
             end in
  ∃ pre, trace run.2 = trace w ++ pre
         ∧ forallb (λ ev, negb (is_register ev)) pre = true
         ∧ queries pre = match oid, c with None, Some _ => 1 | _, _ => 0 end
         ∧ ∀ s, table s run.2 = table s w.
Proof.
  destruct oid as [oid|]; cbn.
  - exists []. by rewrite app_nil_r.
  - exists (lookup_events c w). split; [apply get_json_oids_trace|].
    split; [apply lookup_events_no_register|].
    split; [apply queries_lookup_events|].
    destruct (get_json_oids_tables c w) as (Hg & Hc & Hu).
    by intros [[]|].
Qed.

(** A registration that returns has installed both descriptors at the scope
    that [register_json] computes. *)
Lemma register_json_returns json c g loads oid array_oid w J JA :
  (register_json json c g loads oid array_oid w).1 = Return (J, JA) →
  ∃ A, JA = Some A
       ∧ installed J A (registration_scope g c) w
           (register_json json c g loads oid array_oid w).2.
Proof.
  rewrite register_json_run.
  destruct (resolve_oids_frame c oid array_oid w) as (pre & Htr & Hpre & _ & Htab).
  cbv zeta in Htr, Htab.
  destruct (match oid with None => _ | Some _ => _ end) as [[[o ao]|e] w1];
    [|done].
  cbn in Htr, Htab. rewrite create_json_typecasters_run.
  destruct loads as [loads|], json as [m|]; cbn -[register_type]; try done;
    intros [= <- <-]; eexists; (split; [done|]); (split;
      [ exists pre; split; [|done];
        by rewrite !register_type_trace, Htr, <- !app_assoc
      | intros s; rewrite !register_type_table, Htab; by case_decide ]).
Qed.

(** A registration sends one statement when it has to look the oids up and
    has a connection or cursor to do it on, and none otherwise. *)
Lemma register_json_queries json c g loads oid array_oid w :
  queries (trace (register_json json c g loads oid array_oid w).2)
  = queries (trace w) + match oid, c with None, Some _ => 1 | _, _ => 0 end.
Proof.
  rewrite register_json_run.
  destruct (resolve_oids_frame c oid array_oid w) as (pre & Htr & _ & Hq & _).
  cbv zeta in Htr.
  destruct (match oid with None => _ | Some _ => _ end) as [[[o ao]|e] w1];
    cbn in Htr; [|cbn; by rewrite Htr, queries_app, Hq].
  rewrite create_json_typecasters_run.
  destruct loads as [loads|], json as [m|]; cbn -[register_type];
    rewrite ?register_type_trace, ?queries_app, Htr, queries_app, Hq; cbn; lia.
Qed.

(** ** The wrapper *)

(** C2. A [Json] built with a [dumps] function serializes with exactly that
    function, whether or not a [json] module exists; built without one it
    serializes with [json.dumps] when the module exists; with neither,
    [dumps] raises and returns no text. *)
Theorem Json_dumps_priority json (adapted obj : pyobj) :
  (∀ dumps, Json_dumps (Json_init json adapted (Some dumps)) obj = dumps obj)
  ∧ (∀ m, Json_dumps (Json_init (Some m) adapted None) obj = json_dumps m obj)
  ∧ Json_dumps (Json_init None adapted None) obj
    = Raise (ImportError
               "json module not available: you should provide a dumps function").
Proof. by repeat split. Qed.

(** ** The typecasters *)

(** C1, as the code has it.  With a [loads] function and an absent array oid,
    [_create_json_typecasters] does not raise and returns a scalar descriptor,
    but the array descriptor it returns is not [None]: it is the descriptor
    that [new_array_type] builds for the oid [None].  [register_json], given
    an [oid] and no [array_oid], returns that pair and installs the array
    descriptor under the key [None] of the table of its scope. *)
Theorem create_json_typecasters_absent_array_oid json (oid : Z) (loads : loads_fn) :
  let JSON := new_type [Some oid] "JSON" (λ s _, loads s) in
  let JSONARRAY := new_array_type [None] "JSONARRAY" JSON in
  _create_json_typecasters json oid None (Some loads)
  = Return (JSON, Some JSONARRAY)
  ∧ ∀ c g w,
      (register_json json c g (Some loads) (Some oid) None w).1
      = Return (JSON, Some JSONARRAY)
      ∧ table (registration_scope g c)
          (register_json json c g (Some loads) (Some oid) None w).2 !! None
        = Some JSONARRAY.
Proof.
  intros JSON JSONARRAY. split; [done|]. intros c g w.
  rewrite register_json_run, create_json_typecasters_run.
  split; [done|]. cbn -[register_type].
  rewrite register_type_table, decide_True by done.
  apply lookup_insert_eq.
Qed.

(** ** The lookup *)

(** C3. On a connection or cursor whose query succeeds: in manual-commit mode
    and outside an explicit transaction the lookup sends its statement, fetches
    one row and rolls back, and the status of the connection is afterwards what
    it was before; in auto-commit mode, or inside an explicit transaction, it
    sends the statement and fetches, and calls no rollback.  The first matching
    row, if there is one, is the result. *)
Theorem get_json_oids_restores_status h w :
  query_fault w = None →
  (∀ r rs, lookup_rows w = r :: rs → (_get_json_oids (Some h) w).1 = Return r)
  ∧ (autocommit w = false → status w ≠ STATUS_IN_TRANSACTION →
       trace (_get_json_oids (Some h) w).2
       = trace w ++ [EvExecute (lookup_sql w); EvFetchone; EvRollback]
       ∧ status (_get_json_oids (Some h) w).2 = status w)
  ∧ (autocommit w = true ∨ status w = STATUS_IN_TRANSACTION →
       trace (_get_json_oids (Some h) w).2
       = trace w ++ [EvExecute (lookup_sql w); EvFetchone]).
Proof.
  intros Hq. split; [|split].
  - intros r rs Hrows. by rewrite get_json_oids_outcome, Hq, Hrows.
  - intros Hac Hst. split; [|by apply get_json_oids_status].
    rewrite get_json_oids_trace. unfold lookup_events, reverts.
    rewrite Hq, Hac, bool_decide_eq_false_2; done.
  - intros Hcase. rewrite get_json_oids_trace. unfold lookup_events, reverts.
    rewrite Hq. destruct Hcase as [-> | ->]; [|done].
    by rewrite andb_false_r.
Qed.

(** C7. When the query succeeds and no row of the catalog has the type name
    [json], the lookup raises [ProgrammingError] "json data type not found"
    and returns no pair of oids. *)
Theorem get_json_oids_not_found h w :
  query_fault w = None →
  json_rows (pg_type w) = [] →
  (_get_json_oids (Some h) w).1
  = Raise (ProgrammingError "json data type not found").
Proof.
  intros Hq Hcat. rewrite get_json_oids_outcome, Hq.
  unfold lookup_rows. by rewrite Hcat.
Qed.

(** C9. After a query that succeeds, the status is reverted whatever was
    fetched: in manual-commit mode and outside an explicit transaction the
    rollback is called; when no row matches it is called before the
    [ProgrammingError] is raised.  When the query itself fails, its error is
    raised right after the statement and no rollback is called. *)
Theorem get_json_oids_reverts_after_query h w :
  (query_fault w = None → autocommit w = false →
     status w ≠ STATUS_IN_TRANSACTION →
     trace (_get_json_oids (Some h) w).2
     = trace w ++ [EvExecute (lookup_sql w); EvFetchone; EvRollback]
     ∧ status (_get_json_oids (Some h) w).2 = status w
     ∧ (json_rows (pg_type w) = [] →
          (_get_json_oids (Some h) w).1
          = Raise (ProgrammingError "json data type not found")))
  ∧ (∀ e, query_fault w = Some e →
       (_get_json_oids (Some h) w).1 = Raise e
       ∧ trace (_get_json_oids (Some h) w).2
         = trace w ++ [EvExecute (lookup_sql w)]).
Proof.
  split.
  - intros Hq Hac Hst. split; [|split].
    + rewrite get_json_oids_trace. unfold lookup_events, reverts.
      rewrite Hq, Hac, bool_decide_eq_false_2; done.
    + by apply get_json_oids_status.
    + intros Hcat. rewrite get_json_oids_outcome, Hq.
      unfold lookup_rows. by rewrite Hcat.
  - intros e Hq. split.
    + by rewrite get_json_oids_outcome, Hq.
    + rewrite get_json_oids_trace. unfold lookup_events. by rewrite Hq.
Qed.

(** ** The registration *)

(** C4. In a registration that returns, both descriptors are installed at the
    scope of the connection or cursor when [globally] is false and one was
    given, and at the process-wide scope when [globally] is true or none was
    given; the tables of the other scopes are as before. *)
Theorem register_json_scope json c g loads oid array_oid w J JA :
  (register_json json c g loads oid array_oid w).1 = Return (J, JA) →
  ∃ A, JA = Some A
       ∧ (∀ h, g = false → c = Some h →
            installed J A (Some h) w
              (register_json json c g loads oid array_oid w).2)
       ∧ (g = true ∨ c = None →
            installed J A None w
              (register_json json c g loads oid array_oid w).2).
Proof.
  intros Hret. destruct (register_json_returns _ _ _ _ _ _ _ _ _ Hret) as (A & -> & Hin).
  exists A. split; [done|]. split.
  - by intros h -> ->.
  - intros [-> | ->]; [done|]. by destruct g.
Qed.

(** C5, amended.  No call of [register_default_json] sends a statement to the
    server; when a [loads] function is given or the [json] module exists, the
    call returns descriptors keyed on the oids 114 and 199; when neither is
    there, it raises [ImportError]. *)
Theorem register_default_json_oids json c g loads w :
  queries (trace (register_default_json json c g loads w).2) = queries (trace w)
  ∧ (is_Some loads ∨ is_Some json →
       ∃ J A, (register_default_json json c g loads w).1 = Return (J, Some A)
              ∧ values_of J = [Some 114%Z] ∧ values_of A = [Some 199%Z])
  ∧ (loads = None → json = None →
       (register_default_json json c g loads w).1
       = Raise (ImportError "no json module available")).
Proof.
  unfold register_default_json. split; [|split].
  - rewrite register_json_queries. lia.
  - rewrite register_json_run, create_json_typecasters_run.
    intros [[l ->] | [m ->]]; [|destruct loads]; by eexists _, _.
  - intros -> ->. by rewrite register_json_run, create_json_typecasters_run.
Qed.


(** C8. With no [loads] function and no [json] module, every call of
    [register_json] raises: [ImportError] once the oids are settled, the error
    of the lookup before that.  No table of any scope is written and no
    [register_type] call is made. *)
Theorem register_json_installs_nothing_on_failure c g oid array_oid w :
  is_raise (register_json (pyobj := pyobj) None c g None oid array_oid w).1 = true
  ∧ (∀ o, oid = Some o →
       (register_json (pyobj := pyobj) None c g None oid array_oid w).1
       = Raise (ImportError "no json module available"))
  ∧ (∀ r, oid = None → (_get_json_oids c w).1 = Return r →
       (register_json (pyobj := pyobj) None c g None oid array_oid w).1
       = Raise (ImportError "no json module available"))
  ∧ (∀ s, table s (register_json None c g None oid array_oid w).2 = table s w)
  ∧ ∃ evs, trace (register_json None c g None oid array_oid w).2 = trace w ++ evs
           ∧ forallb (λ ev, negb (is_register ev)) evs = true.
Proof.
  rewrite register_json_run.
  destruct (resolve_oids_frame c oid array_oid w) as (pre & Htr & Hpre & _ & Htab).
  cbv zeta in Htr, Htab.
  assert (∀ o ao, _create_json_typecasters (pyobj := pyobj) None o ao None
                  = Raise (ImportError "no json module available")) as Hc by done.
  repeat split.
  - destruct (match oid with None => _ | Some _ => _ end) as [[[o ao]|e] w1];
      [by rewrite Hc|done].
  - intros o ->. by rewrite Hc.
  - intros r ->. destruct (_get_json_oids c w) as [[[o ao]|e] w1];
      [by rewrite Hc|done].
  - intros s. rewrite <- Htab.
    destruct (match oid with None => _ | Some _ => _ end) as [[[o ao]|e] w1];
      [by rewrite Hc|done].
  - exists pre. split; [|done]. rewrite <- Htr.
    destruct (match oid with None => _ | Some _ => _ end) as [[[o ao]|e] w1];
      [by rewrite Hc|done].
Qed.

(** C10. With an absent [oid], the [array_oid] of the caller plays no part:
    the call runs as the one without it, and both oids of the descriptors are
    those of the pair the lookup returns. *)
Theorem register_json_array_oid_discarded json c g loads (a : Z) w :
  register_json json c g loads None (Some a) w
  = register_json json c g loads None None w
  ∧ (∀ oid aoid, (_get_json_oids c w).1 = Return (oid, aoid) →
       (register_json json c g loads None (Some a) w).1
       = _create_json_typecasters json oid aoid loads).
Proof.
  split; [done|].
  intros oid aoid Hrow. rewrite register_json_run.
  destruct (_get_json_oids c w) as [[[o ao]|e] w1]; [|done].
  injection Hrow as -> ->. rewrite create_json_typecasters_run.
  by destruct loads, json.
Qed.

End Properties.

(** ** The statements at sample inputs *)

Lemma get_json_oids_restores_status_witness :
  query_fault Sample.idle = None
  ∧ autocommit Sample.idle = false
  ∧ status Sample.idle ≠ STATUS_IN_TRANSACTION
  ∧ (_get_json_oids (Some a_connection) Sample.idle).1
    = Return (16400%Z, Some 16401%Z)
  ∧ trace (_get_json_oids (Some a_connection) Sample.idle).2
    = [EvExecute (lookup_sql Sample.idle); EvFetchone; EvRollback]
  ∧ status (_get_json_oids (Some a_connection) Sample.idle).2 = STATUS_READY.
Proof.
  assert (status Sample.idle ≠ STATUS_IN_TRANSACTION) as Hst by discriminate.
  destruct (get_json_oids_restores_status a_connection Sample.idle eq_refl)
    as (Hrow & Hman & _).
  destruct (Hman eq_refl Hst) as [Htr Hs].
  exact (conj eq_refl (conj eq_refl (conj Hst
           (conj (Hrow _ _ eq_refl) (conj Htr Hs))))).
Defined.

Lemma get_json_oids_not_found_witness :
  query_fault Sample.idle_without_json = None
  ∧ json_rows (pg_type Sample.idle_without_json) = []
  ∧ (_get_json_oids (Some a_cursor) Sample.idle_without_json).1
    = Raise (ProgrammingError "json data type not found").
Proof.
  exact (conj eq_refl (conj eq_refl
           (get_json_oids_not_found a_cursor Sample.idle_without_json
              eq_refl eq_refl))).
Defined.

Lemma get_json_oids_reverts_after_query_witness :
  (query_fault Sample.idle_without_json = None
   ∧ autocommit Sample.idle_without_json = false
   ∧ status Sample.idle_without_json ≠ STATUS_IN_TRANSACTION
   ∧ json_rows (pg_type Sample.idle_without_json) = []
   ∧ trace (_get_json_oids (Some a_connection) Sample.idle_without_json).2
     = [EvExecute (lookup_sql Sample.idle_without_json); EvFetchone; EvRollback]
   ∧ (_get_json_oids (Some a_connection) Sample.idle_without_json).1
     = Raise (ProgrammingError "json data type not found"))
  ∧ (query_fault Sample.broken
     = Some (OperationalError "server closed the connection unexpectedly")
     ∧ (_get_json_oids (Some a_connection) Sample.broken).1
       = Raise (OperationalError "server closed the connection unexpectedly")
     ∧ trace (_get_json_oids (Some a_connection) Sample.broken).2
       = [EvExecute (lookup_sql Sample.broken)]).
Proof.
  assert (status Sample.idle_without_json ≠ STATUS_IN_TRANSACTION) as Hst
    by discriminate.
  destruct (get_json_oids_reverts_after_query a_connection Sample.idle_without_json)
    as [Hok _].
  destruct (Hok eq_refl eq_refl Hst) as (Htr & _ & Hnone).
  destruct (get_json_oids_reverts_after_query a_connection Sample.broken)
    as [_ Hbad].
  destruct (Hbad _ eq_refl) as [Hraise Htr'].
  exact (conj
           (conj eq_refl (conj eq_refl (conj Hst
              (conj eq_refl (conj Htr (Hnone eq_refl))))))
           (conj eq_refl (conj Hraise Htr'))).
Defined.

Lemma register_json_scope_witness :
  (register_json (Some Sample.json) (Some a_connection) false None None None
     Sample.idle).1
  = Return (Sample.JSON, Some Sample.JSONARRAY)
  ∧ ∃ A, Some Sample.JSONARRAY = Some A
         ∧ (∀ h, false = false → Some a_connection = Some h →
              installed Sample.JSON A (Some h) Sample.idle
                (register_json (Some Sample.json) (Some a_connection) false None
                   None None Sample.idle).2)
         ∧ (false = true ∨ Some a_connection = None →
              installed Sample.JSON A None Sample.idle
                (register_json (Some Sample.json) (Some a_connection) false None
                   None None Sample.idle).2).
Proof.
  split; [reflexivity|].
  exact (register_json_scope (Some Sample.json) (Some a_connection) false None
           None None Sample.idle Sample.JSON (Some Sample.JSONARRAY) eq_refl).
Defined.

Lemma register_default_json_oids_witness :
  (is_Some (Some Sample.upper_loads) ∨ is_Some (@None (json_module string)))
  ∧ ∃ J A,
      (register_default_json None (Some a_cursor) false (Some Sample.upper_loads)
         Sample.idle).1
      = Return (J, Some A)
      ∧ values_of J = [Some 114%Z] ∧ values_of A = [Some 199%Z].
Proof.
  assert (is_Some (Some Sample.upper_loads) ∨ is_Some (@None (json_module string)))
    as Hl by (left; eexists; reflexivity).
  split; [exact Hl|].
  destruct (register_default_json_oids None (Some a_cursor) false
              (Some Sample.upper_loads) Sample.idle) as (_ & Hok & _).
  exact (Hok Hl).
Defined.


Lemma register_json_installs_nothing_on_failure_witness :
  Some 114%Z = Some 114%Z
  ∧ (register_json (pyobj := string) None (Some a_connection) false None
       (Some 114%Z) (Some 199%Z) Sample.idle).1
    = Raise (ImportError "no json module available").
Proof.
  destruct (register_json_installs_nothing_on_failure (pyobj := string)
              (Some a_connection) false (Some 114%Z) (Some 199%Z) Sample.idle)
    as (_ & Hoid & _).
  exact (conj eq_refl (Hoid _ eq_refl)).
Defined.

Lemma register_json_array_oid_discarded_witness :
  (_get_json_oids (Some a_connection) Sample.idle).1
  = Return (16400%Z, Some 16401%Z)
  ∧ (register_json (Some Sample.json) (Some a_connection) false None None
       (Some 7%Z) Sample.idle).1
    = _create_json_typecasters (Some Sample.json) 16400 (Some 16401%Z) None.
Proof.
  destruct (register_json_array_oid_discarded (Some Sample.json)
              (Some a_connection) false None 7 Sample.idle) as [_ Hoid].
  exact (conj eq_refl (Hoid _ _ eq_refl)).
Defined.

(** ** Where the specification and the code part *)

(** C5, as stated, fails without a [json] module and without a [loads]
    function: the call raises and produces no descriptor. *)
Lemma register_default_json_without_json_module :
  (register_default_json (pyobj := string) None (Some a_connection) false None
     Sample.idle).1
  = Raise (ImportError "no json module available")
  ∧ ¬ ∃ J A,
        (register_default_json (pyobj := string) None (Some a_connection) false
           None Sample.idle).1
        = Return (J, A).
Proof. split; [reflexivity|]. intros (J & A & H). discriminate H. Qed.

(** Without an [oid] and without a connection or cursor, a call the docstring
    of [register_json] rules out, the lookup raises before any statement is
    sent. *)
Example register_json_without_connection_sends_nothing :
  (register_json (Some Sample.json) None false None None None Sample.idle).1
  = Raise (ProgrammingError "no connection or cursor provided")
  ∧ queries (trace (register_json (Some Sample.json) None false None None None
                      Sample.idle).2)
    ≠ S (queries (trace Sample.idle)).
Proof. split; [reflexivity | discriminate]. Qed.

(** On a server without [typarray] the lookup returns no array oid, and
    [register_json] installs an array descriptor under the key [None] of the
    connection's table. *)
Example register_json_before_typarray :
  (register_json (Some Sample.json) (Some a_connection) false None None None
     Sample.before_typarray).1
  = Return (Sample.JSON, Some (new_array_type [None] "JSONARRAY" Sample.JSON))
  ∧ connection_types
      (register_json (Some Sample.json) (Some a_connection) false None None None
         Sample.before_typarray).2 !! None
    = Some (new_array_type [None] "JSONARRAY" Sample.JSON).
Proof. split; reflexivity. Qed.

(** ** Further properties of the module *)

Section Further.
Context {pyobj : Type}.
Implicit Types (w : world pyobj) (h : handle) (c : option handle) (g : bool).
Implicit Types (json : option (json_module pyobj)).
Implicit Types (J A : typecaster pyobj).

(** What a registration that returns went through: the oids were settled, a
    decode function was found, and the descriptors were built from them. *)
Lemma register_json_inv json c g loads oid array_oid w J JA :
  (register_json json c g loads oid array_oid w).1 = Return (J, JA) →
  ∃ o ao dec,
    resolved_oids c oid array_oid w = Return (o, ao)
    ∧ effective_loads json loads = Some dec
    ∧ J = new_type [Some o] "JSON" (λ s _, dec s)
    ∧ JA = Some (new_array_type [ao] "JSONARRAY" J).
Proof.
  rewrite register_json_run. unfold resolved_oids.
  destruct oid as [o|]; [|destruct (_get_json_oids c w) as [[[o ao]|e] w1]];
    try done; rewrite create_json_typecasters_run;
    destruct loads as [l|], json as [m|]; cbn -[register_type]; try done;
    intros [= <- <-]; by eexists _, _, _.
Qed.

(** Two descriptors with one key each, installed one after the other. *)
Lemma typecast_add_lookup (t : gmap (option Z) (typecaster pyobj)) J A k1 k2 k :
  values_of J = [k1] → values_of A = [k2] →
  typecast_add A (typecast_add J t) !! k
  = if decide (k = k2) then Some A
    else if decide (k = k1) then Some J
    else t !! k.
Proof.
  intros HJ HA. unfold typecast_add. rewrite HJ, HA. cbn.
  repeat case_decide; by simplify_map_eq.
Qed.


(** [register_type] leaves the connection and the cursor of the lookup
    alone. *)
Lemma register_type_connection obj scope w :
  status (register_type obj scope w).2 = status w
  ∧ autocommit (register_type obj scope w).2 = autocommit w
  ∧ result_rows (register_type obj scope w).2 = result_rows w.
Proof. unfold register_type. by destruct scope as [[]|]. Qed.

(** The lookup never switches the commit mode of the connection. *)
Lemma get_json_oids_autocommit c w :
  autocommit (_get_json_oids c w).2 = autocommit w.
Proof.
  destruct c as [h|]; [|done]. rewrite get_json_oids_run. cbv zeta.
  unfold reverts, conn_rollback, pq_begin, STATUS_IN_TRANSACTION.
  by destruct (lookup_rows w), w as [[] [] ? ? [] ? ? ? ? ?].
Qed.

(** X3. After a registration that returns, the table of its scope maps the
    array oid to the array descriptor and the scalar oid to the scalar
    descriptor, the array descriptor taking the key when both oids are the
    same; every other key maps to what it mapped to before. *)
Theorem register_json_lookup json c g loads oid array_oid w J JA :
  (register_json json c g loads oid array_oid w).1 = Return (J, JA) →
  ∃ o ao A,
    resolved_oids c oid array_oid w = Return (o, ao)
    ∧ JA = Some A
    ∧ ∀ k, table (registration_scope g c)
             (register_json json c g loads oid array_oid w).2 !! k
           = if decide (k = ao) then Some A
             else if decide (k = Some o) then Some J
             else table (registration_scope g c) w !! k.
Proof.
  intros Hret.
  destruct (register_json_inv _ _ _ _ _ _ _ _ _ Hret)
    as (o & ao & dec & Hoids & _ & HJ & HJA).
  destruct (register_json_returns _ _ _ _ _ _ _ _ _ Hret) as (A & HA & _ & Htab).
  exists o, ao, A. split; [done|]. split; [done|]. intros k.
  rewrite Htab, decide_True by done.
  rewrite HA in HJA. injection HJA as ->.
  apply typecast_add_lookup; [by rewrite HJ | done].
Qed.

(** X4. A registration with given oids replaces an earlier one for the same
    oids at the same scope: once it returns, every table is what this
    registration alone would have made it. *)
Theorem register_json_replaces json c g loads1 loads2 (o : Z) ao w J JA :
  (register_json json c g loads2 (Some o) ao
     (register_json json c g loads1 (Some o) ao w).2).1 = Return (J, JA) →
  ∀ s, table s (register_json json c g loads2 (Some o) ao
                  (register_json json c g loads1 (Some o) ao w).2).2
       = table s (register_json json c g loads2 (Some o) ao w).2.
Proof.
  intros Hret s.
  assert ((register_json json c g loads2 (Some o) ao w).1 = Return (J, JA))
    as Hret' by (rewrite register_json_run in Hret |- *;
                 by destruct (_create_json_typecasters _ _ _ _) as [[? [?|]]|]).
  destruct (register_json_inv _ _ _ _ _ _ _ _ _ Hret)
    as (o2 & ao2 & dec & [= <- <-] & _ & HJ & HJA).
  destruct (register_json_returns _ _ _ _ _ _ _ _ _ Hret) as (A & HA & _ & ->).
  destruct (register_json_returns _ _ _ _ _ _ _ _ _ Hret') as (A' & HA' & _ & ->).
  rewrite HA in HA'. injection HA' as <-.
  rewrite HA in HJA. injection HJA as HA2.
  case_decide as Hs.
  - destruct (register_json json c g loads1 (Some o) ao w).1
      as [[J1 JA1]|e] eqn:Hfirst.
    + destruct (register_json_inv _ _ _ _ _ _ _ _ _ Hfirst)
        as (o1 & ao1 & dec1 & [= <- <-] & _ & HJ1 & HJA1).
      destruct (register_json_returns _ _ _ _ _ _ _ _ _ Hfirst)
        as (A1 & -> & _ & ->).
      injection HJA1 as HA1. rewrite decide_True by done.
      apply map_eq. intros k.
      rewrite !(typecast_add_lookup _ J A (Some o) ao) by (by subst).
      repeat case_decide; try done.
      rewrite (typecast_add_lookup _ J1 A1 (Some o) ao) by (by subst).
      by repeat case_decide.
    + rewrite register_json_run in Hfirst |- *.
      by destruct (_create_json_typecasters _ _ _ _) as [[? [?|]]|].
  - destruct (register_json json c g loads1 (Some o) ao w).1
      as [[J1 JA1]|e] eqn:Hfirst.
    + destruct (register_json_returns _ _ _ _ _ _ _ _ _ Hfirst)
        as (A1 & -> & _ & ->).
      by rewrite decide_False.
    + rewrite register_json_run in Hfirst |- *.
      by destruct (_create_json_typecasters _ _ _ _) as [[? [?|]]|].
Qed.

(** X5. With the [oid] given, [register_json] calls the driver for the two
    installations and for nothing else: when it returns, the trace grew by
    the two [register_type] calls and the connection is as it was; when it
    raises, for want of a decode function, the world is untouched. *)
Theorem register_json_known_oid json c g loads (o : Z) ao w :
  (∀ J JA, (register_json json c g loads (Some o) ao w).1 = Return (J, JA) →
     ∃ A, JA = Some A
          ∧ trace (register_json json c g loads (Some o) ao w).2
            = trace w ++ [EvRegisterType J (registration_scope g c);
                          EvRegisterType A (registration_scope g c)]
          ∧ status (register_json json c g loads (Some o) ao w).2 = status w
          ∧ result_rows (register_json json c g loads (Some o) ao w).2
            = result_rows w)
  ∧ (is_raise (register_json json c g loads (Some o) ao w).1 = true →
       register_json json c g loads (Some o) ao w
       = (Raise (ImportError "no json module available"), w)).
Proof.
  rewrite register_json_run, create_json_typecasters_run.
  split.
  - intros J JA.
    destruct loads as [l|], json as [m|]; cbn -[register_type]; try done;
      intros [= <- <-]; eexists; (split; [done|]);
      rewrite !register_type_trace, <- app_assoc;
      by rewrite !(proj1 (register_type_connection _ _ _)),
                 !(proj2 (proj2 (register_type_connection _ _ _))).
  - by destruct loads as [l|], json as [m|].
Qed.

(** X6. When the lookup raises, [register_json] raises the same error and
    stops where the lookup stopped: no descriptor is built, so a missing
    decode function is not what is reported, and nothing is installed. *)
Theorem register_json_lookup_error json c g loads array_oid w e :
  (_get_json_oids c w).1 = Raise e →
  register_json json c g loads None array_oid w
  = (Raise e, (_get_json_oids c w).2).
Proof.
  intros Hraise. rewrite register_json_run.
  destruct (_get_json_oids c w) as [[[o ao]|e'] w1]; [done|].
  cbn in Hraise. by injection Hraise as ->.
Qed.

(** X7. A registration whose [oid] is given, or whose query is not failed by
    the driver, leaves the connection in the transaction status and in the
    commit mode it found it in, whether it returns or raises. *)
Theorem register_json_keeps_status json c g loads oid array_oid w :
  is_Some oid ∨ query_fault w = None →
  status (register_json json c g loads oid array_oid w).2 = status w
  ∧ autocommit (register_json json c g loads oid array_oid w).2 = autocommit w.
Proof.
  intros Hcase.
  assert (status (match oid with
                  | None => _get_json_oids c w
                  | Some oid => (Return (oid, array_oid), w)
                  end).2 = status w
          ∧ autocommit (match oid with
                        | None => _get_json_oids c w
                        | Some oid => (Return (oid, array_oid), w)
                        end).2 = autocommit w) as [Hst Hac].
  { destruct oid as [o|]; [done|]. destruct Hcase as [[? [=]]|Hq].
    split; [|apply get_json_oids_autocommit].
    destruct c as [h|]; [by apply get_json_oids_status | done]. }
  rewrite register_json_run.
  destruct (match oid with None => _ | Some _ => _ end) as [[[o ao]|e] w1];
    [|done].
  destruct (_create_json_typecasters json o ao loads) as [[J [A|]]|e];
    cbn -[register_type] in *; [| |done];
    by rewrite ?(proj1 (register_type_connection _ _ _)),
               ?(proj1 (proj2 (register_type_connection _ _ _))).
Qed.

(** X8. When the query succeeds, the lookup returns the first row of the
    catalog whose type name is [json]: its oid, with its array oid on a
    server from PostgreSQL 8.3 on and with [None] on an older one, where the
    statement sent selects [NULL] instead of the column [typarray]. *)
Theorem get_json_oids_first_row h w t rest :
  query_fault w = None →
  json_rows (pg_type w) = t :: rest →
  (_get_json_oids (Some h) w).1
  = Return (t_oid t,
            if (80300 <=? server_version w)%Z then Some (typarray t) else None)
  ∧ ∃ evs, trace (_get_json_oids (Some h) w).2
           = trace w
             ++ EvExecute (select_json_oids
                             (if (80300 <=? server_version w)%Z
                              then "typarray" else "NULL"))
             :: evs.
Proof.
  intros Hq Hrows. split.
  - rewrite get_json_oids_outcome, Hq. unfold lookup_rows. by rewrite Hrows.
  - rewrite get_json_oids_trace. unfold lookup_events. by eexists.
Qed.

(** X9. After [register_default_json] returns, the table of its scope maps
    the oid 114 to the scalar descriptor and the oid 199 to the array
    descriptor, and every other key to what it mapped to before. *)
Theorem register_default_json_lookup json c g loads w J JA :
  (register_default_json json c g loads w).1 = Return (J, JA) →
  ∃ A, JA = Some A
       ∧ table (registration_scope g c)
           (register_default_json json c g loads w).2 !! Some 114%Z = Some J
       ∧ table (registration_scope g c)
           (register_default_json json c g loads w).2 !! Some 199%Z = Some A
       ∧ ∀ k, k ≠ Some 114%Z → k ≠ Some 199%Z →
              table (registration_scope g c)
                (register_default_json json c g loads w).2 !! k
              = table (registration_scope g c) w !! k.
Proof.
  unfold register_default_json. intros Hret.
  destruct (register_json_inv _ _ _ _ _ _ _ _ _ Hret)
    as (o & ao & dec & [= <- <-] & _ & HJ & HJA).
  destruct (register_json_returns _ _ _ _ _ _ _ _ _ Hret) as (A & HA & _ & Htab).
  rewrite HA in HJA. injection HJA as HA2.
  exists A. split; [done|].
  rewrite Htab, decide_True by done.
  assert (values_of J = [Some JSON_OID]) as HvJ by by subst.
  assert (values_of A = [Some JSONARRAY_OID]) as HvA by by subst.
  repeat split; [| |intros k Hk1 Hk2];
    rewrite (typecast_add_lookup _ J A _ _ _ HvJ HvA);
    by repeat case_decide.
Qed.

(** X10. The descriptors a registration returns: the scalar one is named
    [JSON], matches the settled oid, and casts a text with the decode function
    (the [loads] given, else [json.loads]) whatever the cursor; the array one
    is named [JSONARRAY], matches the settled array oid, and has that very
    scalar descriptor as its base. *)
Theorem register_json_descriptors json c g loads oid array_oid w J JA :
  (register_json json c g loads oid array_oid w).1 = Return (J, JA) →
  ∃ o ao dec,
    resolved_oids c oid array_oid w = Return (o, ao)
    ∧ effective_loads json loads = Some dec
    ∧ J = new_type [Some o] "JSON" (λ s _, dec s)
    ∧ JA = Some (new_array_type [ao] "JSONARRAY" J).
Proof. apply register_json_inv. Qed.

End Further.

(** ** The further properties at sample inputs *)

Lemma register_json_lookup_witness :
  (register_json (Some Sample.json) (Some a_connection) false None None None
     Sample.idle).1
  = Return (Sample.JSON, Some Sample.JSONARRAY)
  ∧ ∃ o ao A,
      resolved_oids (Some a_connection) None None Sample.idle = Return (o, ao)
      ∧ Some Sample.JSONARRAY = Some A
      ∧ ∀ k, table (registration_scope false (Some a_connection))
               (register_json (Some Sample.json) (Some a_connection) false None
                  None None Sample.idle).2 !! k
             = if decide (k = ao) then Some A
               else if decide (k = Some o) then Some Sample.JSON
               else table (registration_scope false (Some a_connection))
                      Sample.idle !! k.
Proof.
  exact (conj eq_refl
           (register_json_lookup (Some Sample.json) (Some a_connection) false
              None None None Sample.idle Sample.JSON (Some Sample.JSONARRAY)
              eq_refl)).
Defined.

Lemma register_json_replaces_witness :
  (register_json (Some Sample.json) None false None (Some 114%Z) (Some 199%Z)
     (register_json (Some Sample.json) None false (Some Sample.upper_loads)
        (Some 114%Z) (Some 199%Z) Sample.idle).2).1
  = Return (new_type [Some 114%Z] "JSON" (λ s _, Return s),
            Some (new_array_type [Some 199%Z] "JSONARRAY"
                    (new_type [Some 114%Z] "JSON" (λ s _, Return s))))
  ∧ ∀ s, table s
           (register_json (Some Sample.json) None false None (Some 114%Z)
              (Some 199%Z)
              (register_json (Some Sample.json) None false
                 (Some Sample.upper_loads) (Some 114%Z) (Some 199%Z)
                 Sample.idle).2).2
         = table s
             (register_json (Some Sample.json) None false None (Some 114%Z)
                (Some 199%Z) Sample.idle).2.
Proof.
  exact (conj eq_refl
           (register_json_replaces (Some Sample.json) None false
              (Some Sample.upper_loads) None 114 (Some 199%Z) Sample.idle _ _
              eq_refl)).
Defined.

Lemma register_json_known_oid_witness :
  (register_json None None true (Some Sample.upper_loads) (Some 114%Z) None
     Sample.idle).1
  = Return (new_type [Some 114%Z] "JSON" (λ s _, Sample.upper_loads s),
            Some (new_array_type [None] "JSONARRAY"
                    (new_type [Some 114%Z] "JSON"
                       (λ s _, Sample.upper_loads s))))
  ∧ ∃ A, Some (new_array_type [None] "JSONARRAY"
                 (new_type [Some 114%Z] "JSON" (λ s _, Sample.upper_loads s)))
         = Some A
         ∧ trace (register_json None None true (Some Sample.upper_loads)
                    (Some 114%Z) None Sample.idle).2
           = trace Sample.idle
             ++ [EvRegisterType
                   (new_type [Some 114%Z] "JSON" (λ s _, Sample.upper_loads s))
                   (registration_scope true None);
                 EvRegisterType A (registration_scope true None)]
         ∧ status (register_json None None true (Some Sample.upper_loads)
                     (Some 114%Z) None Sample.idle).2
           = status Sample.idle
         ∧ result_rows (register_json None None true (Some Sample.upper_loads)
                          (Some 114%Z) None Sample.idle).2
           = result_rows Sample.idle.
Proof.
  exact (conj eq_refl
           (proj1 (register_json_known_oid None None true
                     (Some Sample.upper_loads) 114 None Sample.idle)
              _ _ eq_refl)).
Defined.

Lemma register_json_lookup_error_witness :
  (_get_json_oids (Some a_connection) Sample.idle_without_json).1
  = Raise (ProgrammingError "json data type not found")
  ∧ register_json (pyobj := string) None (Some a_connection) false None None
      None Sample.idle_without_json
    = (Raise (ProgrammingError "json data type not found"),
       (_get_json_oids (Some a_connection) Sample.idle_without_json).2).
Proof.
  exact (conj eq_refl
           (register_json_lookup_error None (Some a_connection) false None None
              Sample.idle_without_json _ eq_refl)).
Defined.

Lemma register_json_keeps_status_witness :
  (is_Some (@None Z) ∨ query_fault Sample.idle = None)
  ∧ status (register_json (Some Sample.json) (Some a_cursor) false None None
              None Sample.idle).2
    = status Sample.idle
  ∧ autocommit (register_json (Some Sample.json) (Some a_cursor) false None
                  None None Sample.idle).2
    = autocommit Sample.idle.
Proof.
  exact (conj (or_intror eq_refl)
           (register_json_keeps_status (Some Sample.json) (Some a_cursor) false
              None None None Sample.idle (or_intror eq_refl))).
Defined.

Lemma get_json_oids_first_row_witness :
  query_fault Sample.before_typarray = None
  ∧ json_rows (pg_type Sample.before_typarray)
    = [ {| typname := "json"; t_oid := 16400; typarray := 16401 |} ]
  ∧ (_get_json_oids (Some a_connection) Sample.before_typarray).1
    = Return (16400%Z, None)
  ∧ ∃ evs, trace (_get_json_oids (Some a_connection) Sample.before_typarray).2
           = trace Sample.before_typarray
             ++ EvExecute (select_json_oids "NULL") :: evs.
Proof.
  exact (conj eq_refl (conj eq_refl
           (get_json_oids_first_row a_connection Sample.before_typarray _ _
              eq_refl eq_refl))).
Defined.

Lemma register_default_json_lookup_witness :
  (register_default_json (Some Sample.json) (Some a_cursor) true None
     Sample.idle).1
  = Return (new_type [Some 114%Z] "JSON" (λ s _, Return s),
            Some (new_array_type [Some 199%Z] "JSONARRAY"
                    (new_type [Some 114%Z] "JSON" (λ s _, Return s))))
  ∧ ∃ A, Some (new_array_type [Some 199%Z] "JSONARRAY"
                 (new_type [Some 114%Z] "JSON" (λ s _, Return s))) = Some A
         ∧ table (registration_scope true (Some a_cursor))
             (register_default_json (Some Sample.json) (Some a_cursor) true None
                Sample.idle).2 !! Some 114%Z
           = Some (new_type [Some 114%Z] "JSON" (λ s _, Return s))
         ∧ table (registration_scope true (Some a_cursor))
             (register_default_json (Some Sample.json) (Some a_cursor) true None
                Sample.idle).2 !! Some 199%Z
           = Some A
         ∧ ∀ k, k ≠ Some 114%Z → k ≠ Some 199%Z →
                table (registration_scope true (Some a_cursor))
                  (register_default_json (Some Sample.json) (Some a_cursor) true
                     None Sample.idle).2 !! k
                = table (registration_scope true (Some a_cursor)) Sample.idle !! k.
Proof.
  exact (conj eq_refl
           (register_default_json_lookup (Some Sample.json) (Some a_cursor) true
              None Sample.idle _ _ eq_refl)).
Defined.

Lemma register_json_descriptors_witness :
  (register_json (Some Sample.json) (Some a_connection) false None None None
     Sample.idle).1
  = Return (Sample.JSON, Some Sample.JSONARRAY)
  ∧ ∃ o ao dec,
      resolved_oids (Some a_connection) None None Sample.idle = Return (o, ao)
      ∧ effective_loads (Some Sample.json) None = Some dec
      ∧ Sample.JSON = new_type [Some o] "JSON" (λ s _, dec s)
      ∧ Some Sample.JSONARRAY
        = Some (new_array_type [ao] "JSONARRAY" Sample.JSON).
Proof.
  exact (conj eq_refl
           (register_json_descriptors (Some Sample.json) (Some a_connection)
              false None None None Sample.idle Sample.JSON
              (Some Sample.JSONARRAY) eq_refl)).
Defined.
